(** * Upload middleware of the IDentigraF uploader: model and properties

    Shallow embedding of [src/middleware/upload.ts]: the options of the
    two multer acceptors, the two upload validators, the cleanup pass over
    the files staged by multer, the cleanup middleware and the upload
    error handler.

    Conventions of the embedding
    - a request is reduced to the two properties the file reads,
      [req.file] and [req.files];
    - the disk is the finite set of the paths that exist on it;
    - a handler's observable behaviour is the call it makes to [next]
      (or, for an [async] handler, the rejection of its promise) together
      with the state of the disk it leaves behind;
    - the [unlink] calls of one cleanup pass are issued in the order of
      the source and take effect when they are issued; when the joined
      promise of a pass rejects, the disk of the model is the one reached
      once every issued removal has settled, which in the running program
      can be later than the rejection.  That a file is gone from the
      disk is therefore only stated for helpers that never reject. *)

From Stdlib Require Import ZArith String List Bool Lia.
From stdpp Require Import gmap strings list.

Local Open Scope string_scope.
Local Open Scope Z_scope.

(** ** Data model *)

(** [Express.Multer.File], the properties read by the middleware. *)
Record File : Type := mkFile {
  fieldname : string;
  path : string;
  mimetype : string;
  size : Z
}.

(** A JavaScript object used as a dictionary of file groups: the entries
    in [Object.keys] order. *)
Abbreviation FileDict := (list (string * list File)).

(** [req.files] is either [File[]] or [{ [fieldname]: File[] }]. *)
Inductive Files : Type :=
| FilesArray (arr : list File)
| FilesByField (dict : FileDict).

(** The part of [Request] the middleware looks at; [None] is
    [undefined]. *)
Record Request : Type := mkRequest {
  file : option File;
  files : option Files
}.

(** [ErrorResponse] of express-microservice-middlewares. *)
Record ErrorResponse : Type := mkErrorResponse {
  success : bool;
  status : Z;
  code : string;
  message : string
}.

(** The values that reach [next] or the error handler ([err: unknown]). *)
Inductive JsValue : Type :=
| JsUndefined
| JsNull
| JsString (s : string)
| JsResponse (r : ErrorResponse)
| JsMulterError (errCode errMessage : string)
| JsError (errMessage : string).

(** What a handler does with the pipeline: it calls [next()]
    ([Next None]), calls [next(v)] ([Next (Some v)]), or, being [async],
    rejects without calling [next]. *)
Inductive Signal : Type :=
| Next (arg : option JsValue)
| Threw (reason : JsValue).

(** A settled promise of [void]. *)
Inductive Settled : Type :=
| Resolved
| Rejected (reason : JsValue).

(** The disk, and the log of the paths [unlink] was called with. *)
Record World : Type := mkWorld {
  disk : gset string;
  unlinked : list string
}.

(** The imported [unlink]: given a path and a disk, a settled promise and
    the disk it leaves. *)
Abbreviation Unlinker := (string -> gset string -> Settled * gset string).

(** ** JavaScript primitives used by the file *)

Definition startsWith (s pre : string) : bool := String.prefix pre s.

Definition truthy (v : JsValue) : bool :=
  match v with
  | JsUndefined | JsNull => false
  | JsString s => negb (String.eqb s "")
  | JsResponse _ | JsMulterError _ _ | JsError _ => true
  end.

(** [typeof v === 'object'] *)
Definition typeofObject (v : JsValue) : bool :=
  match v with
  | JsUndefined | JsString _ => false
  | JsNull | JsResponse _ | JsMulterError _ _ | JsError _ => true
  end.

(** [v instanceof MulterError] *)
Definition instanceofMulterError (v : JsValue) : bool :=
  match v with
  | JsMulterError _ _ => true
  | _ => false
  end.

(** [err.code] and [err.message] of an error object. *)
Definition errCodeOf (v : JsValue) : string :=
  match v with
  | JsMulterError c _ => c
  | JsResponse r => code r
  | _ => ""
  end.

Definition errMessageOf (v : JsValue) : string :=
  match v with
  | JsMulterError _ m | JsError m => m
  | JsResponse r => message r
  | _ => ""
  end.

(** [Object.keys(o)] and [o[key]]; the file only reads [o[key]] for a
    key taken from [Object.keys(o)], where it is defined. *)
Definition Object_keys (o : FileDict) : list string := map fst o.

Fixpoint Object_get (o : FileDict) (key : string) : list File :=
  match o with
  | [] => []
  | (k, v) :: o' => if String.eqb k key then v else Object_get o' key
  end.

(** [xs.forEach(body)] over a threaded state. *)
Definition forEach {A S : Type} (xs : list A) (body : A -> S -> S) (s : S) : S :=
  fold_left (fun acc x => body x acc) xs s.

(** [xs.map(f)] for an [f] with an effect on the state. *)
Fixpoint Array_map {A B S : Type} (f : A -> S -> B * S) (xs : list A) (s : S)
  : list B * S :=
  match xs with
  | [] => ([], s)
  | x :: xs' =>
      let '(y, s1) := f x s in
      let '(ys, s2) := Array_map f xs' s1 in
      (y :: ys, s2)
  end.

(** [Promise.all]: resolves when every promise resolved, rejects with the
    reason of the first one that rejected.  "First" is taken in the order
    of the array, the order in which the removals were issued; the running
    program takes the first in time.  The reason only matters for a helper
    that rejects. *)
Fixpoint Promise_all (ps : list Settled) : Settled :=
  match ps with
  | [] => Resolved
  | Resolved :: ps' => Promise_all ps'
  | Rejected e :: _ => Rejected e
  end.

(** ** The four canned rejections *)

Definition noFile : ErrorResponse :=
  {| success := false; status := 400; code := "NO_FILES";
     message := "No files found in the request" |}.

Definition tooFewFiles : ErrorResponse :=
  {| success := false; status := 400; code := "TOO_FEW_FILES";
     message := "Too few files uploaded" |}.

Definition badFile : ErrorResponse :=
  {| success := false; status := 400; code := "UNSUPPORTED_FILE";
     message := "Unsupported file type" |}.

Definition emptyFile : ErrorResponse :=
  {| success := false; status := 400; code := "EMPTY_FILE";
     message := "Empty file uploaded" |}.

(** ** Validators *)

(** The handler that [uploadSingleFileMiddleware(field)] installs after
    multer's [single(field)]. *)
Definition uploadSingleFileMiddleware (field : string) (req : Request) : Signal :=
  match file req with
  | None => Next (Some (JsResponse noFile))
  | Some f =>
      if negb (startsWith (mimetype f) "image/") then
        Next (Some (JsResponse badFile))
      else if size f =? 0 then
        Next (Some (JsResponse emptyFile))
      else
        Next None
  end.

(** The [for (const { mimetype, size } of req.files)] loop, followed by
    the final [next()]. *)
Fixpoint checkEach (fs : list File) : Signal :=
  match fs with
  | [] => Next None
  | f :: fs' =>
      if negb (startsWith (mimetype f) "image/") then
        Next (Some (JsResponse badFile))
      else if size f =? 0 then
        Next (Some (JsResponse emptyFile))
      else
        checkEach fs'
  end.

(** The handler that [uploadMultipleFilesMiddleware(field, minFiles,
    maxFiles)] installs after multer's [array(field)]. *)
Definition uploadMultipleFilesMiddleware
  (field : string) (minFiles maxFiles : Z) (req : Request) : Signal :=
  match files req with
  | Some (FilesArray arr) =>
      if (Z.of_nat (length arr) =? 0) then
        Next (Some (JsResponse noFile))
      else if (Z.of_nat (length arr) <? minFiles) then
        Next (Some (JsResponse tooFewFiles))
      else
        checkEach arr
  | Some (FilesByField _) | None => Next (Some (JsResponse noFile))
  end.

(** The [switch (err.code)] of the error handler: the code of the response
    built from a [MulterError]. *)
Definition responseCode (errCode : string) : string :=
  if existsb (String.eqb errCode)
       ["LIMIT_PART_COUNT"; "LIMIT_FILE_SIZE"; "LIMIT_FILE_COUNT";
        "LIMIT_FIELD_KEY"; "LIMIT_FIELD_VALUE"; "LIMIT_FIELD_COUNT";
        "LIMIT_UNEXPECTED_FILE"]
  then String.append "UPLOAD_" errCode
  else "BAD_REQUEST".

(** ** Cleanup *)

Section Cleanup.

(** The [unlink] imported from [../utils]. *)
Variable u : Unlinker.

(** One call [unlink(p)]. *)
Definition callUnlink (p : string) (w : World) : Settled * World :=
  let '(r, d) := u p (disk w) in
  (r, {| disk := d; unlinked := (unlinked w ++ [p])%list |}).

(** [unlink(file.path)] *)
Definition unlinkFile (f : File) (w : World) : Settled * World :=
  callUnlink (path f) w.

(** [promises.push(unlink(file.path))] *)
Definition pushUnlink (f : File) (st : list Settled * World)
  : list Settled * World :=
  let '(promises, w) := st in
  let '(r, w') := unlinkFile f w in
  ((promises ++ [r])%list, w').

(** [cleanupFiles(req)]: the promise it settles to and the world it
    leaves.  [promises.length] is zero exactly when nothing was pushed.
    Every [unlink] of the collection branch is called before the [await];
    the world returned has all of them done, which is the world at the
    moment the promise settles when none of them rejects. *)
Definition cleanupFiles (req : Request) (w : World) : Settled * World :=
  match file req with
  | Some f => unlinkFile f w
  | None =>
      match files req with
      | Some fs =>
          let '(promises, w') :=
            match fs with
            | FilesArray arr =>
                Array_map unlinkFile arr w
            | FilesByField dict =>
                forEach (Object_keys dict)
                  (fun key => forEach (Object_get dict key) pushUnlink)
                  ([], w)
            end in
          if (length promises =? 0)%nat then (Resolved, w')
          else (Promise_all promises, w')
      | None => (Resolved, w)
      end
  end.

(** [cleanupFiles(req).finally(next)]: [next] is called without an
    argument once the pass has settled, whichever way. *)
Definition cleanUploadedFilesMiddleware (req : Request) (w : World)
  : Signal * World :=
  let '(_, w') := cleanupFiles req w in
  (Next None, w').

(** [await cleanupFiles(req)] first: when the pass rejects, so does the
    handler, before it reaches [next]. *)
Definition uploadErrorHandlerMiddleware
  (err : JsValue) (req : Request) (w : World) : Signal * World :=
  match cleanupFiles req w with
  | (Rejected e, w') => (Threw e, w')
  | (Resolved, w') =>
      if truthy err && typeofObject err && instanceofMulterError err then
        let response :=
          {| success := false; status := 400;
             code := responseCode (errCodeOf err);
             message := errMessageOf err |} in
        (Next (Some (JsResponse response)), w')
      else
        (Next (Some err), w')
  end.

End Cleanup.

(** ** The removal helper *)

(** Node's [fs.promises.unlink] on the set of existing paths, when the
    file system refuses no removal: removes the path when it is there,
    fails ([ENOENT]) when it is not.  [fs_unlink_guarded] below adds the
    removals the file system refuses. *)
Definition fs_unlink (p : string) (d : gset string) : option (gset string) :=
  if decide (p ∈ d) then Some (d ∖ {[p]}) else None.

(** Modelled from the spec: the [unlink] helper of [../utils], which is not
    among the sources, on a file system that refuses no removal.  The spec
    makes removal best-effort: a failed removal (a file already missing)
    is not escalated and never re-throws into the request pipeline.  So
    the helper removes the file and its promise resolves whether or not
    the removal succeeded.  [unlinkBestEffort] below is the same helper on
    a file system that refuses some removals. *)
Definition unlink : Unlinker := fun p d =>
  match fs_unlink p d with
  | Some d' => (Resolved, d')
  | None => (Resolved, d)
  end.

(** For comparison only: a helper that lets the failure of the removal
    through. *)
Definition unlinkStrict : Unlinker := fun p d =>
  match fs_unlink p d with
  | Some d' => (Resolved, d')
  | None => (Rejected (JsError "ENOENT"), d)
  end.

(** Node's [fs.promises.unlink] when the file system refuses to remove
    the paths of [denied] (a permission error): such a removal fails and
    the file stays; any other removal is as [fs_unlink]. *)
Definition fs_unlink_guarded (denied : gset string) (p : string) (d : gset string)
  : option (gset string) :=
  if decide (p ∈ denied) then None else fs_unlink p d.

(** Modelled from the spec: the [unlink] helper of [../utils], which is not
    among the sources, with both removal failures the spec names, a file
    already missing and a permission error.  Removal is best-effort: a
    failed removal is not escalated and never re-throws into the request
    pipeline, so the promise resolves either way; after a failed removal
    the disk is as it was. *)
Definition unlinkBestEffort (denied : gset string) : Unlinker := fun p d =>
  match fs_unlink_guarded denied p d with
  | Some d' => (Resolved, d')
  | None => (Resolved, d)
  end.

(** ** Vocabulary of the statements *)

(** The files a request context refers to. *)
Definition filesOf (fs : Files) : list File :=
  match fs with
  | FilesArray arr => arr
  | FilesByField dict => flat_map snd dict
  end.

Definition stagedFiles (req : Request) : list File :=
  (match file req with Some f => [f] | None => [] end ++
   match files req with Some fs => filesOf fs | None => [] end)%list.

(** The files the cleanup pass is described to remove: the single file if
    there is one, otherwise the files of the collection. *)
Definition cleanupTargets (req : Request) : list File :=
  match file req with
  | Some f => [f]
  | None => match files req with Some fs => filesOf fs | None => [] end
  end.

(** The keys of a JavaScript object are pairwise distinct. *)
Definition distinctKeys (req : Request) : Prop :=
  match files req with
  | Some (FilesByField dict) => List.NoDup (Object_keys dict)
  | _ => True
  end.

(** What multer leaves on a request: [single] sets [req.file] only,
    [array], [any] and [fields] set [req.files] only. *)
Definition populatedByMulter (req : Request) : Prop :=
  (file req = None \/ files req = None) /\ distinctKeys req.

(** A failure with the given code and HTTP status reaches [next]. *)
Definition failsWith (c : string) (st : Z) (s : Signal) : Prop :=
  exists msg,
    s = Next (Some (JsResponse
          {| success := false; status := st; code := c; message := msg |})).

Definition isImage (f : File) : Prop := startsWith (mimetype f) "image/" = true.

(** A file the validators accept. *)
Definition acceptable (f : File) : Prop := isImage f /\ size f <> 0.

(** The seven limit codes of multer that the handler rewrites. *)
Definition limitCodes : list string :=
  ["LIMIT_PART_COUNT"; "LIMIT_FILE_SIZE"; "LIMIT_FILE_COUNT";
   "LIMIT_FIELD_KEY"; "LIMIT_FIELD_VALUE"; "LIMIT_FIELD_COUNT";
   "LIMIT_UNEXPECTED_FILE"].

(** ** Sample data *)

Definition photo : File :=
  {| fieldname := "photo"; path := "/tmp/upload/0a1b"; mimetype := "image/png";
     size := 1024 |}.

Definition notes : File :=
  {| fieldname := "photo"; path := "/tmp/upload/2c3d"; mimetype := "text/plain";
     size := 12 |}.

Definition blank : File :=
  {| fieldname := "photo"; path := "/tmp/upload/4e5f"; mimetype := "image/jpeg";
     size := 0 |}.

Definition portrait : File :=
  {| fieldname := "photo"; path := "/tmp/upload/6a7b"; mimetype := "image/jpeg";
     size := 2048 |}.

Definition noUpload : Request := {| file := None; files := None |}.
Definition onePhoto : Request := {| file := Some photo; files := None |}.
Definition twoPhotos : Request :=
  {| file := None; files := Some (FilesArray [photo; portrait]) |}.
Definition grouped : Request :=
  {| file := None;
     files := Some (FilesByField [("front", [photo]); ("back", [portrait; notes])]) |}.
Definition both : Request :=
  {| file := Some photo; files := Some (FilesArray [portrait; notes]) |}.

(** A disk on which [photo] is staged and [portrait] is already gone. *)
Definition sampleWorld : World :=
  {| disk := {[ path photo; path notes ]}; unlinked := [] |}.

(** The files the cleanup pass goes through, in the order in which it
    calls [unlink] for them. *)
Definition visited (req : Request) : list File :=
  match file req with
  | Some f => [f]
  | None =>
      match files req with
      | Some (FilesArray arr) => arr
      | Some (FilesByField dict) =>
          flat_map (Object_get dict) (Object_keys dict)
      | None => []
      end
  end.

(** The response the error handler builds from a [MulterError]. *)
Definition translated (errCode errMessage : string) : ErrorResponse :=
  {| success := false; status := 400; code := responseCode errCode;
     message := errMessage |}.

(** ** The upload acceptors *)

(** [Environment] of [../lib/environment]: the two settings this file
    reads. *)
Record Environment : Type := mkEnvironment {
  IDENTIGRAF_UPLOAD_FOLDER : string;
  IDENTIGRAF_MAX_FILE_SIZE : Z
}.

(** The [limits] object and the options object handed to [multer]. *)
Record Limits : Type := mkLimits {
  limitFiles : Z;
  fileSize : Z
}.

Record MulterOptions : Type := mkMulterOptions {
  dest : string;
  limits : Limits
}.

(** [singleFileUploader(env)] and [multipleFileUploader(env, maxFiles)],
    as the options they build; the instance multer makes of them is
    outside this file. *)
Definition singleFileUploader (env : Environment) : MulterOptions :=
  {| dest := IDENTIGRAF_UPLOAD_FOLDER env;
     limits := {| limitFiles := 1; fileSize := IDENTIGRAF_MAX_FILE_SIZE env |} |}.

Definition multipleFileUploader (env : Environment) (maxFiles : Z) : MulterOptions :=
  {| dest := IDENTIGRAF_UPLOAD_FOLDER env;
     limits := {| limitFiles := maxFiles;
                  fileSize := IDENTIGRAF_MAX_FILE_SIZE env |} |}.

(** What the [files] limit of multer guarantees of an upload that gets
    past it: no more files than the limit (beyond it multer raises
    [LIMIT_FILE_COUNT] instead of calling the validator). *)
Definition withinFileLimit (o : MulterOptions) (arr : list File) : Prop :=
  Z.of_nat (length arr) <= limitFiles (limits o).

(** ** Vocabulary of the further properties *)

(** A removal helper that leaves every path other than the one it is
    given as it was. *)
Definition touchesOnlyItsPath (u : Unlinker) : Prop :=
  forall (p : string) (d : gset string) (q : string),
    q <> p -> (q ∈ snd (u p d) <-> q ∈ d).

(** A removal helper after which the path it was given is gone and the
    rest of the disk is as it was, whether or not its promise resolves. *)
Definition removesItsPath (u : Unlinker) : Prop :=
  forall (p : string) (d : gset string), snd (u p d) = d ∖ {[p]}.

(** A removal helper whose promise always resolves. *)
Definition neverRejects (u : Unlinker) : Prop :=
  forall (p : string) (d : gset string), fst (u p d) = Resolved.

(** The codes the error handler can give to a translated [MulterError]. *)
Definition translatedCodes : list string :=
  "BAD_REQUEST" :: map (String.append "UPLOAD_") limitCodes.

Definition sampleEnv : Environment :=
  {| IDENTIGRAF_UPLOAD_FOLDER := "/tmp/upload";
     IDENTIGRAF_MAX_FILE_SIZE := 5242880 |}.

(** Closes a side condition on sample data by evaluation. *)
Local Ltac evaluated :=
  solve
    [ reflexivity
    | discriminate
    | vm_compute; lia
    | let H := fresh in intros H; vm_compute in H; discriminate H
    | repeat constructor;
      solve [ reflexivity | discriminate
            | let H := fresh in intros H; vm_compute in H; discriminate H ] ].

(** ** Validators: properties *)

Lemma startsWith_false_not_image (f : File) :
  startsWith (mimetype f) "image/" = false <-> ~ isImage f.
Proof.
  unfold isImage. destruct (startsWith (mimetype f) "image/"); split.
  - discriminate.
  - intros H. exfalso. apply H. reflexivity.
  - intros _ H. discriminate H.
  - reflexivity.
Qed.

Lemma checkEach_acceptable_prefix (pre rest : list File) :
  Forall acceptable pre -> checkEach (pre ++ rest) = checkEach rest.
Proof.
  induction 1 as [|f pre [Himg Hsz] _ IH]; simpl; [reflexivity|].
  unfold isImage in Himg. rewrite Himg. simpl.
  apply Z.eqb_neq in Hsz. rewrite Hsz. exact IH.
Qed.

Lemma checkEach_all_acceptable (fs : list File) :
  Forall acceptable fs -> checkEach fs = Next None.
Proof.
  intros H. rewrite <- (app_nil_r fs).
  rewrite (checkEach_acceptable_prefix fs [] H). reflexivity.
Qed.

(** C2. On a single-file endpoint the validator rejects with NO_FILES/400
    when no file was received; otherwise with UNSUPPORTED_FILE/400 when the
    MIME type of the file does not start with [image/]; otherwise with
    EMPTY_FILE/400 when its size is zero; otherwise it calls [next()]
    without an error. *)
Theorem single_file_validation (field : string) (req : Request) :
  (file req = None ->
     failsWith "NO_FILES" 400 (uploadSingleFileMiddleware field req)) /\
  (forall f, file req = Some f -> ~ isImage f ->
     failsWith "UNSUPPORTED_FILE" 400 (uploadSingleFileMiddleware field req)) /\
  (forall f, file req = Some f -> isImage f -> size f = 0 ->
     failsWith "EMPTY_FILE" 400 (uploadSingleFileMiddleware field req)) /\
  (forall f, file req = Some f -> isImage f -> size f <> 0 ->
     uploadSingleFileMiddleware field req = Next None).
Proof.
  unfold uploadSingleFileMiddleware. repeat split.
  - intros ->. eexists. reflexivity.
  - intros f -> Hno. apply startsWith_false_not_image in Hno.
    rewrite Hno. eexists. reflexivity.
  - intros f -> Himg Hz. unfold isImage in Himg.
    rewrite Himg, Hz. eexists. reflexivity.
  - intros f -> Himg Hnz. unfold isImage in Himg.
    apply Z.eqb_neq in Hnz. rewrite Himg, Hnz. reflexivity.
Qed.

Lemma single_file_validation_witness :
  failsWith "NO_FILES" 400 (uploadSingleFileMiddleware "photo" noUpload) /\
  failsWith "UNSUPPORTED_FILE" 400
    (uploadSingleFileMiddleware "photo" {| file := Some notes; files := None |}) /\
  failsWith "EMPTY_FILE" 400
    (uploadSingleFileMiddleware "photo" {| file := Some blank; files := None |}) /\
  uploadSingleFileMiddleware "photo" onePhoto = Next None.
Proof.
  split; [|split; [|split]].
  - apply (proj1 (single_file_validation "photo" noUpload)). reflexivity.
  - apply (proj1 (proj2 (single_file_validation "photo"
             {| file := Some notes; files := None |})) notes).
    + reflexivity.
    + intros H. vm_compute in H. discriminate H.
  - apply (proj1 (proj2 (proj2 (single_file_validation "photo"
             {| file := Some blank; files := None |}))) blank);
      reflexivity.
  - apply (proj2 (proj2 (proj2 (single_file_validation "photo" onePhoto))) photo).
    + reflexivity.
    + reflexivity.
    + intros H. vm_compute in H. discriminate H.
Defined.

(** C3. On a multi-file endpoint the validator rejects with NO_FILES/400
    when the collection is absent or empty; otherwise with
    TOO_FEW_FILES/400 when fewer files than [minFiles] were received;
    otherwise it goes through the files in array order and rejects at the
    first file that violates a rule, with UNSUPPORTED_FILE when its MIME
    type does not start with [image/] and with EMPTY_FILE when the type is
    fine and the size is zero; when every file passes it calls [next()]
    without an error. *)
Theorem multiple_files_validation
  (field : string) (minFiles maxFiles : Z) (req : Request) :
  (files req = None \/ files req = Some (FilesArray []) ->
     failsWith "NO_FILES" 400
       (uploadMultipleFilesMiddleware field minFiles maxFiles req)) /\
  (forall arr, files req = Some (FilesArray arr) -> arr <> [] ->
     Z.of_nat (length arr) < minFiles ->
     failsWith "TOO_FEW_FILES" 400
       (uploadMultipleFilesMiddleware field minFiles maxFiles req)) /\
  (forall pre f post, files req = Some (FilesArray (pre ++ f :: post)) ->
     minFiles <= Z.of_nat (length (pre ++ f :: post)) ->
     Forall acceptable pre -> ~ isImage f ->
     failsWith "UNSUPPORTED_FILE" 400
       (uploadMultipleFilesMiddleware field minFiles maxFiles req)) /\
  (forall pre f post, files req = Some (FilesArray (pre ++ f :: post)) ->
     minFiles <= Z.of_nat (length (pre ++ f :: post)) ->
     Forall acceptable pre -> isImage f -> size f = 0 ->
     failsWith "EMPTY_FILE" 400
       (uploadMultipleFilesMiddleware field minFiles maxFiles req)) /\
  (forall arr, files req = Some (FilesArray arr) -> arr <> [] ->
     minFiles <= Z.of_nat (length arr) ->
     Forall acceptable arr ->
     uploadMultipleFilesMiddleware field minFiles maxFiles req = Next None).
Proof.
  unfold uploadMultipleFilesMiddleware.
  assert (Hlen : forall arr : list File, arr <> [] ->
            (Z.of_nat (length arr) =? 0) = false).
  { intros [|x arr] Hne; [congruence|]. apply Z.eqb_neq. simpl length. lia. }
  split; [|split; [|split; [|split]]].
  - intros [-> | ->]; eexists; reflexivity.
  - intros arr -> Hne Hlt. rewrite (Hlen arr Hne).
    apply Z.ltb_lt in Hlt. rewrite Hlt. eexists. reflexivity.
  - intros pre f post -> Hmin Hpre Hno.
    rewrite Hlen by (destruct pre; discriminate).
    apply Z.ltb_ge in Hmin. rewrite Hmin.
    rewrite (checkEach_acceptable_prefix pre (f :: post) Hpre). simpl.
    apply startsWith_false_not_image in Hno. rewrite Hno.
    eexists. reflexivity.
  - intros pre f post -> Hmin Hpre Himg Hz.
    rewrite Hlen by (destruct pre; discriminate).
    apply Z.ltb_ge in Hmin. rewrite Hmin.
    rewrite (checkEach_acceptable_prefix pre (f :: post) Hpre). simpl.
    unfold isImage in Himg. rewrite Himg, Hz. eexists. reflexivity.
  - intros arr -> Hne Hmin Hall. rewrite (Hlen arr Hne).
    apply Z.ltb_ge in Hmin. rewrite Hmin.
    apply checkEach_all_acceptable. exact Hall.
Qed.

Lemma multiple_files_validation_witness :
  failsWith "NO_FILES" 400 (uploadMultipleFilesMiddleware "photos" 2 5 noUpload) /\
  failsWith "TOO_FEW_FILES" 400
    (uploadMultipleFilesMiddleware "photos" 2 5
       {| file := None; files := Some (FilesArray [photo]) |}) /\
  failsWith "UNSUPPORTED_FILE" 400
    (uploadMultipleFilesMiddleware "photos" 2 5
       {| file := None; files := Some (FilesArray ([photo] ++ notes :: [blank])) |}) /\
  failsWith "EMPTY_FILE" 400
    (uploadMultipleFilesMiddleware "photos" 2 5
       {| file := None; files := Some (FilesArray ([photo] ++ blank :: [notes])) |}) /\
  uploadMultipleFilesMiddleware "photos" 2 5 twoPhotos = Next None.
Proof.
  split; [|split; [|split; [|split]]].
  - apply (proj1 (multiple_files_validation "photos" 2 5 noUpload)).
    left. reflexivity.
  - apply (proj1 (proj2 (multiple_files_validation "photos" 2 5
             {| file := None; files := Some (FilesArray [photo]) |})) [photo]);
      evaluated.
  - apply (proj1 (proj2 (proj2 (multiple_files_validation "photos" 2 5
             {| file := None;
                files := Some (FilesArray ([photo] ++ notes :: [blank])) |})))
             [photo] notes [blank]); evaluated.
  - apply (proj1 (proj2 (proj2 (proj2 (multiple_files_validation "photos" 2 5
             {| file := None;
                files := Some (FilesArray ([photo] ++ blank :: [notes])) |}))))
             [photo] blank [notes]); evaluated.
  - apply (proj2 (proj2 (proj2 (proj2 (multiple_files_validation "photos" 2 5
             twoPhotos)))) [photo; portrait]); evaluated.
Defined.

(** ** The cleanup pass: what it calls and what it returns *)

Section CleanupFacts.

Variable u : Unlinker.

Lemma Array_map_app {A B S : Type} (f : A -> S -> B * S) (xs ys : list A) (s : S) :
  Array_map f (xs ++ ys) s =
    let '(r1, s1) := Array_map f xs s in
    let '(r2, s2) := Array_map f ys s1 in
    ((r1 ++ r2)%list, s2).
Proof.
  revert s. induction xs as [|x xs IH]; intros s; simpl.
  - destruct (Array_map f ys s). reflexivity.
  - destruct (f x s) as [y s1]. rewrite IH.
    destruct (Array_map f xs s1) as [r1 s2].
    destruct (Array_map f ys s2). reflexivity.
Qed.

(** The inner [forEach] pushes what [map] would return. *)
Lemma forEach_pushUnlink (fs : list File) (acc : list Settled) (w : World) :
  forEach fs (pushUnlink u) (acc, w) =
    let '(rs, w') := Array_map (unlinkFile u) fs w in ((acc ++ rs)%list, w').
Proof.
  unfold forEach. revert acc w.
  induction fs as [|f fs IH]; intros acc w; simpl.
  - rewrite app_nil_r. reflexivity.
  - destruct (unlinkFile u f w) as [r w1]. rewrite IH.
    destruct (Array_map _ fs w1) as [rs w2].
    rewrite <- app_assoc. reflexivity.
Qed.

(** The two nested [forEach] go through the groups key by key. *)
Lemma forEach_keys (dict : FileDict) (keys : list string)
      (acc : list Settled) (w : World) :
  forEach keys (fun key => forEach (Object_get dict key) (pushUnlink u)) (acc, w) =
    let '(rs, w') :=
      Array_map (unlinkFile u) (flat_map (Object_get dict) keys) w in
    ((acc ++ rs)%list, w').
Proof.
  revert acc w. induction keys as [|k keys IH]; intros acc w.
  - simpl. rewrite app_nil_r. reflexivity.
  - change (forEach (k :: keys) ?b (acc, w))
      with (forEach keys b (forEach (Object_get dict k) (pushUnlink u) (acc, w))).
    rewrite forEach_pushUnlink. simpl flat_map. rewrite Array_map_app.
    destruct (Array_map (unlinkFile u) (Object_get dict k) w) as [r1 w1].
    rewrite IH.
    destruct (Array_map (unlinkFile u) _ w1) as [r2 w2].
    rewrite app_assoc. reflexivity.
Qed.

Lemma Promise_all_length (rs : list Settled) (w : World) :
  (if (length rs =? 0)%nat then (Resolved, w) else (Promise_all rs, w)) =
    (Promise_all rs, w).
Proof. destruct rs; reflexivity. Qed.

(** The whole pass: one [unlink] per visited file, the promises joined. *)
Lemma cleanupFiles_visited (req : Request) (w : World) :
  cleanupFiles u req w =
    let '(rs, w') := Array_map (unlinkFile u) (visited req) w in
    (Promise_all rs, w').
Proof.
  unfold cleanupFiles, visited.
  destruct (file req) as [f|].
  - simpl. destruct (unlinkFile u f w) as [[|e] w']; reflexivity.
  - destruct (files req) as [[arr|dict]|]; [| |reflexivity].
    + destruct (Array_map _ arr w) as [rs w']. cbv beta iota.
      rewrite Promise_all_length. reflexivity.
    + rewrite forEach_keys.
      destruct (Array_map _ _ w) as [rs w']. cbv beta iota. simpl app.
      rewrite Promise_all_length. reflexivity.
Qed.

Lemma Array_map_unlinked (fs : list File) (w : World) :
  unlinked (snd (Array_map (unlinkFile u) fs w)) =
    (unlinked w ++ map path fs)%list.
Proof.
  revert w. induction fs as [|f fs IH]; intros w; simpl.
  - rewrite app_nil_r. reflexivity.
  - unfold unlinkFile at 1. unfold callUnlink.
    destruct (u (path f) (disk w)) as [r d].
    specialize (IH {| disk := d; unlinked := (unlinked w ++ [path f])%list |}).
    destruct (Array_map (unlinkFile u) fs _) as [rs w2]. simpl in *.
    rewrite IH, <- app_assoc. reflexivity.
Qed.

Lemma cleanupFiles_unlinked (req : Request) (w : World) :
  unlinked (snd (cleanupFiles u req w)) =
    (unlinked w ++ map path (visited req))%list.
Proof.
  rewrite cleanupFiles_visited, <- Array_map_unlinked.
  destruct (Array_map (unlinkFile u) (visited req) w). reflexivity.
Qed.

End CleanupFacts.

(** With distinct keys, going through [Object.keys] reaches every group
    once. *)
Lemma Object_get_other (k : string) (v : list File) (dict : FileDict)
      (keys : list string) :
  ~ In k keys ->
  flat_map (Object_get ((k, v) :: dict)) keys = flat_map (Object_get dict) keys.
Proof.
  induction keys as [|k' keys IH]; intros Hnot; [reflexivity|].
  cbn [flat_map]. rewrite IH by (intros Hin; apply Hnot; right; exact Hin).
  f_equal. cbn [Object_get].
  destruct (String.eqb_spec k k') as [->|_]; [|reflexivity].
  exfalso. apply Hnot. left. reflexivity.
Qed.

Lemma Object_groups (dict : FileDict) :
  List.NoDup (Object_keys dict) ->
  flat_map (Object_get dict) (Object_keys dict) = flat_map snd dict.
Proof.
  induction dict as [|[k v] dict IH]; intros Hnd; [reflexivity|].
  simpl in Hnd. apply NoDup_cons_iff in Hnd as [Hnot Hnd].
  change (Object_keys ((k, v) :: dict)) with (k :: Object_keys dict).
  cbn [flat_map snd]. rewrite Object_get_other by exact Hnot.
  rewrite IH by exact Hnd. f_equal.
  cbn [Object_get]. rewrite String.eqb_refl. reflexivity.
Qed.

Lemma visited_cleanupTargets (req : Request) :
  distinctKeys req -> visited req = cleanupTargets req.
Proof.
  unfold distinctKeys, visited, cleanupTargets.
  destruct (file req); [reflexivity|].
  destruct (files req) as [[arr|dict]|]; try reflexivity.
  intros Hnd. apply Object_groups. exact Hnd.
Qed.

(** ** The cleanup pass with the best-effort helper *)

Lemma fs_unlink_missing (p : string) (d : gset string) :
  p ∉ d -> fs_unlink p d = None.
Proof. intros H. unfold fs_unlink. case_decide; [contradiction|reflexivity]. Qed.

Lemma unlink_effect (p : string) (d : gset string) :
  unlink p d = (Resolved, d ∖ {[p]}).
Proof.
  unfold unlink, fs_unlink. case_decide as Hin; f_equal.
  symmetry. apply difference_disjoint_L, disjoint_singleton_r, Hin.
Qed.

Lemma Array_map_unlink (fs : list File) (w : World) :
  Array_map (unlinkFile unlink) fs w =
    (repeat Resolved (length fs),
     {| disk := disk w ∖ list_to_set (map path fs);
        unlinked := (unlinked w ++ map path fs)%list |}).
Proof.
  revert w. induction fs as [|f fs IH]; intros w; simpl.
  - destruct w as [d l]. simpl. rewrite app_nil_r, difference_empty_L.
    reflexivity.
  - unfold unlinkFile at 1. unfold callUnlink. rewrite unlink_effect, IH. simpl.
    rewrite <- app_assoc, difference_difference_l_L. reflexivity.
Qed.

Lemma Promise_all_repeat (n : nat) : Promise_all (repeat Resolved n) = Resolved.
Proof. induction n; simpl; auto. Qed.

Lemma cleanupFiles_unlink (req : Request) (w : World) :
  cleanupFiles unlink req w =
    (Resolved,
     {| disk := disk w ∖ list_to_set (map path (visited req));
        unlinked := (unlinked w ++ map path (visited req))%list |}).
Proof.
  rewrite cleanupFiles_visited, Array_map_unlink, Promise_all_repeat.
  reflexivity.
Qed.

Lemma staged_are_visited (req : Request) (f : File) :
  populatedByMulter req -> In f (stagedFiles req) -> In f (visited req).
Proof.
  intros [Hexcl Hkeys] Hin. rewrite (visited_cleanupTargets req Hkeys).
  unfold stagedFiles in Hin. unfold cleanupTargets.
  destruct Hexcl as [Hnone | Hnone]; rewrite Hnone in *.
  - exact Hin.
  - rewrite app_nil_r in Hin. destruct (file req); exact Hin.
Qed.

Lemma visited_path_gone (req : Request) (f : File) (d : gset string) :
  In f (visited req) -> path f ∉ d ∖ list_to_set (map path (visited req)).
Proof.
  intros Hin Hel. apply elem_of_difference in Hel as [_ Hnot].
  apply Hnot, elem_of_list_to_set, list_elem_of_In, in_map, Hin.
Qed.

(** The error handler with a helper whose pass resolved. *)
Lemma uploadErrorHandlerMiddleware_resolved
      (u : Unlinker) (err : JsValue) (req : Request) (w : World) :
  fst (cleanupFiles u req w) = Resolved ->
  fst (uploadErrorHandlerMiddleware u err req w) =
    Next (Some (if instanceofMulterError err
                then JsResponse (translated (errCodeOf err) (errMessageOf err))
                else err)).
Proof.
  unfold uploadErrorHandlerMiddleware.
  destruct (cleanupFiles u req w) as [[|e] w']; simpl; [|discriminate].
  intros _. destruct err; simpl; rewrite ?andb_false_r; reflexivity.
Qed.

Lemma uploadErrorHandlerMiddleware_world
      (u : Unlinker) (err : JsValue) (req : Request) (w : World) :
  snd (uploadErrorHandlerMiddleware u err req w) = snd (cleanupFiles u req w).
Proof.
  unfold uploadErrorHandlerMiddleware.
  destruct (cleanupFiles u req w) as [[|e] w']; simpl; [|reflexivity].
  destruct (truthy err && typeofObject err && instanceofMulterError err);
    reflexivity.
Qed.

Lemma cleanUploadedFilesMiddleware_next (u : Unlinker) (req : Request) (w : World) :
  cleanUploadedFilesMiddleware u req w = (Next None, snd (cleanupFiles u req w)).
Proof.
  unfold cleanUploadedFilesMiddleware.
  destruct (cleanupFiles u req w). reflexivity.
Qed.

Lemma cleanupFiles_unlink_resolved (req : Request) (w : World) :
  fst (cleanupFiles unlink req w) = Resolved.
Proof. rewrite cleanupFiles_unlink. reflexivity. Qed.

(** A removal that fails along the way, and what each helper makes of it:
    [portrait] is not on the sample disk. *)
Example removal_fails_on_sample :
  fs_unlink (path portrait) (disk sampleWorld) = None /\
  fst (cleanupFiles unlink twoPhotos sampleWorld) = Resolved /\
  fst (cleanupFiles unlinkStrict twoPhotos sampleWorld) = Rejected (JsError "ENOENT").
Proof. repeat split; vm_compute; reflexivity. Qed.

(** With a helper that rejects, the [await] in the error handler rejects
    too and [next] is never called; the cleanup middleware still calls
    [next()]. *)
Example strict_helper_escalates :
  fst (uploadErrorHandlerMiddleware unlinkStrict (JsResponse badFile)
         twoPhotos sampleWorld) = Threw (JsError "ENOENT") /\
  fst (cleanUploadedFilesMiddleware unlinkStrict twoPhotos sampleWorld) = Next None.
Proof. split; vm_compute; reflexivity. Qed.

(** ** Staged files do not outlive the request *)

Lemma unlinkBestEffort_effect (denied : gset string) (p : string) (d : gset string) :
  unlinkBestEffort denied p d =
    (Resolved, if decide (p ∈ denied) then d else d ∖ {[p]}).
Proof.
  unfold unlinkBestEffort, fs_unlink_guarded.
  case_decide as Hden; [reflexivity|].
  unfold fs_unlink. case_decide as Hin; f_equal.
  symmetry. apply difference_disjoint_L, disjoint_singleton_r, Hin.
Qed.

Lemma unlinkBestEffort_nothing_denied (p : string) (d : gset string) :
  unlinkBestEffort ∅ p d = unlink p d.
Proof.
  rewrite unlinkBestEffort_effect, unlink_effect.
  case_decide as Hden; [|reflexivity].
  exfalso. exact (not_elem_of_empty p Hden).
Qed.

Lemma Array_map_unlinkBestEffort (denied : gset string) (fs : list File) (w : World) :
  Array_map (unlinkFile (unlinkBestEffort denied)) fs w =
    (repeat Resolved (length fs),
     {| disk := disk w ∖ (list_to_set (map path fs) ∖ denied);
        unlinked := (unlinked w ++ map path fs)%list |}).
Proof.
  revert w. induction fs as [|f fs IH]; intros w; simpl.
  - destruct w as [d l]. simpl. rewrite app_nil_r. do 2 f_equal.
    apply set_eq. intros x.
    rewrite !elem_of_difference, elem_of_empty. tauto.
  - unfold unlinkFile at 1. unfold callUnlink.
    rewrite unlinkBestEffort_effect, IH. simpl.
    rewrite <- app_assoc. do 2 f_equal.
    apply set_eq. intros x.
    case_decide as Hden;
      rewrite !elem_of_difference, elem_of_union, ?elem_of_singleton.
    + split; [intros [Hx Hno] | intros [Hx Hno]]; (split; [exact Hx|]).
      * intros [[-> | Hin] Hnd]; [exact (Hnd Hden) | apply Hno; tauto].
      * intros [Hin Hnd]. apply Hno. tauto.
    + split.
      * intros [[Hx Hne] Hno]. split; [exact Hx|].
        intros [[Heq | Hin] Hnd]; [exact (Hne Heq) | apply Hno; tauto].
      * intros [Hx Hno]. split; [split; [exact Hx|] |].
        -- intros ->. apply Hno. tauto.
        -- intros [Hin Hnd]. apply Hno. tauto.
Qed.

Lemma cleanupFiles_unlinkBestEffort (denied : gset string) (req : Request) (w : World) :
  cleanupFiles (unlinkBestEffort denied) req w =
    (Resolved,
     {| disk := disk w ∖ (list_to_set (map path (visited req)) ∖ denied);
        unlinked := (unlinked w ++ map path (visited req))%list |}).
Proof.
  rewrite cleanupFiles_visited, Array_map_unlinkBestEffort, Promise_all_repeat.
  reflexivity.
Qed.

(** C1, as the code has it.  For a request whose files were staged by
    multer, on each way out the cleanup pass is run over the request and
    calls the removal helper for every staged file before the chain is
    handed on: after validation and dispatch by the cleanup middleware,
    which then calls [next()]; after a validation rejection or a
    transport-level upload error (any [err]) by the error handler, which
    then calls [next] with an error.  A staged file whose removal the file
    system does not refuse is gone from the disk at that point; one whose
    removal is refused stays as it was, removal being best-effort. *)
Theorem staged_files_removed_unless_refused
  (denied : gset string) (req : Request) (w : World) (err : JsValue) (f : File) :
  populatedByMulter req -> In f (stagedFiles req) ->
  (fst (cleanUploadedFilesMiddleware (unlinkBestEffort denied) req w) = Next None /\
   snd (cleanUploadedFilesMiddleware (unlinkBestEffort denied) req w) =
     snd (cleanupFiles (unlinkBestEffort denied) req w)) /\
  ((exists v, fst (uploadErrorHandlerMiddleware (unlinkBestEffort denied) err req w)
                = Next (Some v)) /\
   snd (uploadErrorHandlerMiddleware (unlinkBestEffort denied) err req w) =
     snd (cleanupFiles (unlinkBestEffort denied) req w)) /\
  In (path f) (map path (cleanupTargets req)) /\
  unlinked (snd (cleanupFiles (unlinkBestEffort denied) req w)) =
    (unlinked w ++ map path (cleanupTargets req))%list /\
  (path f ∉ denied ->
   path f ∉ disk (snd (cleanupFiles (unlinkBestEffort denied) req w))) /\
  (path f ∈ denied ->
   (path f ∈ disk (snd (cleanupFiles (unlinkBestEffort denied) req w)) <->
    path f ∈ disk w)).
Proof.
  intros Hpop Hin. pose proof (staged_are_visited req f Hpop Hin) as Hvis.
  assert (Hres : fst (cleanupFiles (unlinkBestEffort denied) req w) = Resolved)
    by (rewrite cleanupFiles_unlinkBestEffort; reflexivity).
  rewrite cleanUploadedFilesMiddleware_next, uploadErrorHandlerMiddleware_world.
  rewrite (uploadErrorHandlerMiddleware_resolved _ err req w Hres).
  rewrite cleanupFiles_unlinkBestEffort. simpl.
  rewrite <- (visited_cleanupTargets req (proj2 Hpop)).
  assert (Hpath : path f ∈ (list_to_set (map path (visited req)) : gset string))
    by (apply elem_of_list_to_set, list_elem_of_In, in_map, Hvis).
  repeat split.
  - eexists. reflexivity.
  - apply in_map, Hvis.
  - intros Hfree Hon. apply elem_of_difference in Hon as [_ Hno].
    apply Hno, elem_of_difference. split; assumption.
  - intros Hon. apply elem_of_difference in Hon as [Hon _]. exact Hon.
  - intros Hon. apply elem_of_difference. split; [exact Hon|].
    intros Hrm. apply elem_of_difference in Hrm as [_ Hfree]. exact (Hfree H).
Qed.

Lemma staged_files_removed_unless_refused_witness :
  (path photo ∉
     disk (snd (cleanupFiles (unlinkBestEffort {[path notes]})
                  {| file := None; files := Some (FilesArray [photo; notes]) |}
                  sampleWorld))) /\
  (path notes ∈
     disk (snd (cleanupFiles (unlinkBestEffort {[path notes]})
                  {| file := None; files := Some (FilesArray [photo; notes]) |}
                  sampleWorld))).
Proof.
  split.
  - apply (staged_files_removed_unless_refused {[path notes]}
             {| file := None; files := Some (FilesArray [photo; notes]) |}
             sampleWorld (JsResponse badFile) photo).
    + split; [left; reflexivity | exact I].
    + left. reflexivity.
    + intros H. apply elem_of_singleton in H. discriminate H.
  - apply (staged_files_removed_unless_refused {[path notes]}
             {| file := None; files := Some (FilesArray [photo; notes]) |}
             sampleWorld (JsResponse badFile) notes).
    + split; [left; reflexivity | exact I].
    + right. left. reflexivity.
    + apply elem_of_singleton. reflexivity.
    + apply (bool_decide_unpack _). vm_compute. exact I.
Defined.

(** C1 as stated fails: a staged file whose removal the file system
    refuses is still on the disk after the cleanup middleware has called
    [next()] and after the error handler has called [next]. *)
Lemma staged_file_outlives_request :
  populatedByMulter onePhoto /\ In photo (stagedFiles onePhoto) /\
  fst (cleanUploadedFilesMiddleware (unlinkBestEffort {[path photo]})
         onePhoto sampleWorld) = Next None /\
  (path photo ∈
     disk (snd (cleanUploadedFilesMiddleware (unlinkBestEffort {[path photo]})
                  onePhoto sampleWorld))) /\
  fst (uploadErrorHandlerMiddleware (unlinkBestEffort {[path photo]})
         (JsResponse emptyFile) onePhoto sampleWorld) =
    Next (Some (JsResponse emptyFile)) /\
  (path photo ∈
     disk (snd (uploadErrorHandlerMiddleware (unlinkBestEffort {[path photo]})
                  (JsResponse emptyFile) onePhoto sampleWorld))).
Proof.
  split; [split; [right; reflexivity | exact I]|].
  split; [left; reflexivity|].
  split; [vm_compute; reflexivity|].
  split; [apply (bool_decide_unpack _); vm_compute; exact I|].
  split; [vm_compute; reflexivity|].
  apply (bool_decide_unpack _). vm_compute. exact I.
Qed.

(** ** The error handler *)

Lemma responseCode_limit (c : string) :
  In c limitCodes -> responseCode c = String.append "UPLOAD_" c.
Proof.
  intros Hin. unfold responseCode.
  replace (existsb _ _) with true; [reflexivity|].
  symmetry. apply existsb_exists. exists c. split; [exact Hin|].
  apply String.eqb_refl.
Qed.

Lemma responseCode_default (c : string) :
  ~ In c limitCodes -> responseCode c = "BAD_REQUEST".
Proof.
  intros Hnot. unfold responseCode.
  replace (existsb _ _) with false; [reflexivity|].
  symmetry. apply not_true_is_false. intros Hex.
  apply existsb_exists in Hex as [x [Hin Heq]].
  apply String.eqb_eq in Heq. subst x. exact (Hnot Hin).
Qed.

(** C4. A [MulterError] that reaches the error handler goes on to [next]
    as an [ErrorResponse] with [success] false, status 400 and the
    message of the error; its code is [BAD_REQUEST], except for the seven
    limit codes, for which it is [UPLOAD_] followed by the code of the
    error.  This holds for any removal helper whose cleanup pass
    resolves, and so for the best-effort one. *)
Theorem multer_error_translation
  (errCode errMessage : string) (req : Request) (w : World) :
  let r := translated errCode errMessage in
  (forall u : Unlinker,
     fst (cleanupFiles u req w) = Resolved ->
     fst (uploadErrorHandlerMiddleware u (JsMulterError errCode errMessage) req w)
       = Next (Some (JsResponse r))) /\
  fst (uploadErrorHandlerMiddleware unlink (JsMulterError errCode errMessage) req w)
    = Next (Some (JsResponse r)) /\
  success r = false /\ status r = 400 /\ message r = errMessage /\
  (In errCode limitCodes -> code r = String.append "UPLOAD_" errCode) /\
  (~ In errCode limitCodes -> code r = "BAD_REQUEST").
Proof.
  intros r. subst r. repeat split.
  - intros u Hres.
    apply (uploadErrorHandlerMiddleware_resolved u
             (JsMulterError errCode errMessage) req w Hres).
  - apply (uploadErrorHandlerMiddleware_resolved unlink
             (JsMulterError errCode errMessage) req w),
      cleanupFiles_unlink_resolved.
  - apply responseCode_limit.
  - apply responseCode_default.
Qed.

Lemma multer_error_translation_witness :
  fst (uploadErrorHandlerMiddleware unlinkStrict
         (JsMulterError "LIMIT_FILE_SIZE" "File too large") onePhoto sampleWorld)
    = Next (Some (JsResponse
        {| success := false; status := 400; code := "UPLOAD_LIMIT_FILE_SIZE";
           message := "File too large" |})) /\
  code (translated "LIMIT_FILE_SIZE" "File too large") = "UPLOAD_LIMIT_FILE_SIZE" /\
  code (translated "MISSING_FIELD_NAME" "Field name missing") = "BAD_REQUEST".
Proof.
  pose proof (multer_error_translation "LIMIT_FILE_SIZE" "File too large"
                onePhoto sampleWorld) as [Hany [_ [_ [_ [_ [Hlim _]]]]]].
  pose proof (multer_error_translation "MISSING_FIELD_NAME" "Field name missing"
                onePhoto sampleWorld) as [_ [_ [_ [_ [_ [_ Hdef]]]]]].
  split; [|split].
  - apply (Hany unlinkStrict). vm_compute. reflexivity.
  - apply Hlim. vm_compute. tauto.
  - apply Hdef. vm_compute. intros H.
    repeat (destruct H as [H|H]; [discriminate H|]). exact H.
Defined.

(** C5. Whatever the error, the error handler first runs the cleanup pass:
    the disk it leaves is the one the pass leaves, independently of the
    error.  An error that is not a [MulterError] is then handed to [next]
    as it is, for any removal helper whose pass resolves, and so for the
    best-effort one. *)
Theorem error_handler_cleans_then_forwards
  (u : Unlinker) (err : JsValue) (req : Request) (w : World) :
  snd (uploadErrorHandlerMiddleware u err req w) = snd (cleanupFiles u req w) /\
  (instanceofMulterError err = false ->
   fst (cleanupFiles u req w) = Resolved ->
   fst (uploadErrorHandlerMiddleware u err req w) = Next (Some err)) /\
  (instanceofMulterError err = false ->
   fst (uploadErrorHandlerMiddleware unlink err req w) = Next (Some err)).
Proof.
  split; [apply uploadErrorHandlerMiddleware_world|]. split.
  - intros Hno Hres.
    rewrite (uploadErrorHandlerMiddleware_resolved u err req w Hres), Hno.
    reflexivity.
  - intros Hno.
    rewrite (uploadErrorHandlerMiddleware_resolved unlink err req w
               (cleanupFiles_unlink_resolved req w)), Hno.
    reflexivity.
Qed.

Lemma error_handler_cleans_then_forwards_witness :
  fst (uploadErrorHandlerMiddleware unlinkStrict (JsResponse tooFewFiles)
         onePhoto sampleWorld) = Next (Some (JsResponse tooFewFiles)) /\
  fst (uploadErrorHandlerMiddleware unlink (JsError "ECONNRESET")
         twoPhotos sampleWorld) = Next (Some (JsError "ECONNRESET")).
Proof.
  split.
  - apply (proj1 (proj2 (error_handler_cleans_then_forwards unlinkStrict
             (JsResponse tooFewFiles) onePhoto sampleWorld))).
    + reflexivity.
    + vm_compute. reflexivity.
  - apply (proj2 (proj2 (error_handler_cleans_then_forwards unlink
             (JsError "ECONNRESET") twoPhotos sampleWorld))).
    reflexivity.
Defined.

(** ** What the cleanup pass touches *)

(** C6. The cleanup pass calls the removal helper for exactly the files the
    context refers to, once each and in order: the single file if there is
    one, otherwise the files of the array, otherwise the files of every
    field group.  When that is no file at all, the pass does nothing: no
    removal, the world unchanged, the promise resolved. *)
Theorem cleanup_attempts_exactly_targets
  (u : Unlinker) (req : Request) (w : World) :
  distinctKeys req ->
  unlinked (snd (cleanupFiles u req w)) =
    (unlinked w ++ map path (cleanupTargets req))%list /\
  (cleanupTargets req = [] -> cleanupFiles u req w = (Resolved, w)).
Proof.
  intros Hkeys. rewrite <- (visited_cleanupTargets req Hkeys). split.
  - apply cleanupFiles_unlinked.
  - intros Hnone. rewrite cleanupFiles_visited, Hnone. reflexivity.
Qed.

Lemma cleanup_attempts_exactly_targets_witness :
  unlinked (snd (cleanupFiles unlinkStrict grouped sampleWorld)) =
    [path photo; path portrait; path notes] /\
  cleanupFiles unlinkStrict
    {| file := None; files := Some (FilesByField [("front", [])]) |} sampleWorld =
    (Resolved, sampleWorld).
Proof.
  split.
  - apply (proj1 (cleanup_attempts_exactly_targets unlinkStrict grouped sampleWorld
                    ltac:(vm_compute; repeat constructor;
                          intros H; repeat (destruct H as [H|H]; [discriminate H|]);
                          exact H))).
  - apply (proj2 (cleanup_attempts_exactly_targets unlinkStrict
                    {| file := None; files := Some (FilesByField [("front", [])]) |}
                    sampleWorld
                    ltac:(vm_compute; repeat constructor; intros H; exact H))).
    reflexivity.
Defined.

(** C9. When a request carries both a single file and a collection, the
    cleanup pass is the one call of the helper for the single file: the
    collection is not gone through.  With the best-effort helper the disk
    loses the single file's path and nothing else, so a file of the
    collection stored elsewhere stays where it is. *)
Theorem single_file_takes_precedence
  (u : Unlinker) (req : Request) (w : World) (f : File) (fs : Files) :
  file req = Some f -> files req = Some fs ->
  cleanupFiles u req w = callUnlink u (path f) w /\
  unlinked (snd (cleanupFiles u req w)) = (unlinked w ++ [path f])%list /\
  disk (snd (cleanupFiles unlink req w)) = disk w ∖ {[path f]} /\
  (forall g, In g (filesOf fs) -> path g <> path f -> path g ∈ disk w ->
     path g ∈ disk (snd (cleanupFiles unlink req w))).
Proof.
  intros Hfile Hfiles.
  assert (Hcall : forall v : Unlinker,
            cleanupFiles v req w = callUnlink v (path f) w).
  { intros v. unfold cleanupFiles, unlinkFile. rewrite Hfile. reflexivity. }
  assert (Hdisk : disk (snd (cleanupFiles unlink req w)) = disk w ∖ {[path f]}).
  { rewrite Hcall. unfold callUnlink. rewrite unlink_effect. reflexivity. }
  split; [apply Hcall|]. split; [|split].
  - rewrite Hcall. unfold callUnlink.
    destruct (u (path f) (disk w)). reflexivity.
  - exact Hdisk.
  - intros g _ Hne Hon. rewrite Hdisk.
    apply elem_of_difference. split; [exact Hon|].
    intros Heq. apply elem_of_singleton in Heq. exact (Hne Heq).
Qed.

Lemma single_file_takes_precedence_witness :
  unlinked (snd (cleanupFiles unlinkStrict both sampleWorld)) = [path photo] /\
  path notes ∈ disk (snd (cleanupFiles unlink both sampleWorld)).
Proof.
  pose proof (single_file_takes_precedence unlinkStrict both sampleWorld photo
                (FilesArray [portrait; notes]) eq_refl eq_refl)
    as [_ [Hlog [_ Hkept]]].
  split; [exact Hlog|].
  apply (Hkept notes).
  - right. left. reflexivity.
  - intros H. discriminate H.
  - apply (bool_decide_unpack _). vm_compute. exact I.
Defined.

(** C10. On a multi-file endpoint a collection grouped by field is rejected
    with NO_FILES/400 whatever the groups hold, although the cleanup pass
    knows that shape and calls the helper for every file of every
    group. *)
Theorem grouped_files_rejected_but_cleaned
  (field : string) (minFiles maxFiles : Z) (req : Request) (dict : FileDict) :
  files req = Some (FilesByField dict) ->
  failsWith "NO_FILES" 400 (uploadMultipleFilesMiddleware field minFiles maxFiles req) /\
  (forall (u : Unlinker) (w : World),
     file req = None -> List.NoDup (Object_keys dict) ->
     unlinked (snd (cleanupFiles u req w)) =
       (unlinked w ++ map path (flat_map snd dict))%list).
Proof.
  intros Hfiles. split.
  - unfold uploadMultipleFilesMiddleware. rewrite Hfiles. eexists. reflexivity.
  - intros u w Hfile Hnd. rewrite cleanupFiles_unlinked.
    unfold visited. rewrite Hfile, Hfiles, (Object_groups dict Hnd).
    reflexivity.
Qed.

Lemma grouped_files_rejected_but_cleaned_witness :
  failsWith "NO_FILES" 400 (uploadMultipleFilesMiddleware "photos" 1 5 grouped) /\
  unlinked (snd (cleanupFiles unlink grouped sampleWorld)) =
    [path photo; path portrait; path notes].
Proof.
  pose proof (grouped_files_rejected_but_cleaned "photos" 1 5 grouped
                [("front", [photo]); ("back", [portrait; notes])] eq_refl)
    as [Hrej Hclean].
  split; [exact Hrej|].
  apply (Hclean unlink sampleWorld eq_refl).
  repeat constructor;
    intros H; repeat (destruct H as [H|H]; [discriminate H|]); exact H.
Defined.

(** ** Failing removals *)

(** C7. When the removal of a file the pass goes through fails (the file
    is missing from the disk), the failure stays out of the pipeline: the
    cleanup middleware still calls [next()] without an error, with any
    helper; and, with the best-effort helper, the pass resolves and the
    error handler still calls [next] with the translated [MulterError] or
    with the error it was given. *)
Theorem removal_failure_not_escalated
  (req : Request) (w : World) (err : JsValue) (f : File) :
  In f (visited req) -> fs_unlink (path f) (disk w) = None ->
  (forall u : Unlinker, fst (cleanUploadedFilesMiddleware u req w) = Next None) /\
  fst (cleanupFiles unlink req w) = Resolved /\
  fst (uploadErrorHandlerMiddleware unlink err req w) =
    Next (Some (if instanceofMulterError err
                then JsResponse (translated (errCodeOf err) (errMessageOf err))
                else err)).
Proof.
  intros _ _. split; [|split].
  - intros u. rewrite cleanUploadedFilesMiddleware_next. reflexivity.
  - apply cleanupFiles_unlink_resolved.
  - apply uploadErrorHandlerMiddleware_resolved, cleanupFiles_unlink_resolved.
Qed.

Lemma removal_failure_not_escalated_witness :
  fst (cleanUploadedFilesMiddleware unlinkStrict twoPhotos sampleWorld) = Next None /\
  fst (uploadErrorHandlerMiddleware unlink (JsResponse badFile) twoPhotos sampleWorld)
    = Next (Some (JsResponse badFile)).
Proof.
  pose proof (removal_failure_not_escalated twoPhotos sampleWorld
                (JsResponse badFile) portrait) as H.
  destruct H as [Hclean [_ Hfwd]].
  - right. left. reflexivity.
  - vm_compute. reflexivity.
  - split; [apply (Hclean unlinkStrict) | exact Hfwd].
Defined.

(** C8. The cleanup pass can be run again on the same context: the first
    pass resolves; at the second pass every removal is that of a file
    already gone, yet the pass resolves again, leaves the disk as the
    first pass left it, and the cleanup middleware calls [next()] without
    an error (as it does on a second run with any helper). *)
Theorem cleanup_idempotent (req : Request) (w : World) :
  let once := cleanupFiles unlink req w in
  let twice := cleanupFiles unlink req (snd once) in
  fst once = Resolved /\
  (forall f, In f (visited req) -> fs_unlink (path f) (disk (snd once)) = None) /\
  fst twice = Resolved /\
  disk (snd twice) = disk (snd once) /\
  fst (cleanUploadedFilesMiddleware unlink req (snd once)) = Next None /\
  (forall u : Unlinker,
     fst (cleanUploadedFilesMiddleware u req
            (snd (cleanUploadedFilesMiddleware u req w))) = Next None).
Proof.
  cbv zeta. rewrite cleanUploadedFilesMiddleware_next.
  rewrite !cleanupFiles_unlink. simpl.
  repeat split.
  - intros f Hin. apply fs_unlink_missing, visited_path_gone, Hin.
  - apply difference_twice_L.
  - intros u. rewrite !cleanUploadedFilesMiddleware_next. reflexivity.
Qed.

(** * Further properties of the middleware *)

(** ** What a passing validator guarantees *)

Lemma checkEach_outcome (fs : list File) :
  checkEach fs = Next None \/
  checkEach fs = Next (Some (JsResponse badFile)) \/
  checkEach fs = Next (Some (JsResponse emptyFile)).
Proof.
  induction fs as [|f fs IH]; simpl; [left; reflexivity|].
  destruct (startsWith (mimetype f) "image/"); simpl; [|right; left; reflexivity].
  destruct (size f =? 0); [right; right; reflexivity | exact IH].
Qed.

Lemma checkEach_pass_acceptable (fs : list File) :
  checkEach fs = Next None -> Forall acceptable fs.
Proof.
  induction fs as [|f fs IH]; simpl; intros Hpass; [constructor|].
  destruct (startsWith (mimetype f) "image/") eqn:Himg; simpl in Hpass;
    [|discriminate Hpass].
  destruct (size f =? 0) eqn:Hsz; [discriminate Hpass|].
  constructor; [|apply IH; exact Hpass].
  split; [exact Himg | apply Z.eqb_neq; exact Hsz].
Qed.

Lemma single_outcome (field : string) (req : Request) :
  uploadSingleFileMiddleware field req = Next None \/
  exists r, In r [noFile; badFile; emptyFile] /\
            uploadSingleFileMiddleware field req = Next (Some (JsResponse r)).
Proof.
  unfold uploadSingleFileMiddleware. destruct (file req) as [f|].
  - destruct (startsWith (mimetype f) "image/"); simpl.
    + destruct (size f =? 0); [right | left; reflexivity].
      exists emptyFile. split; [simpl; tauto | reflexivity].
    + right. exists badFile. split; [simpl; tauto | reflexivity].
  - right. exists noFile. split; [simpl; tauto | reflexivity].
Qed.

Lemma multiple_outcome (field : string) (minFiles maxFiles : Z) (req : Request) :
  uploadMultipleFilesMiddleware field minFiles maxFiles req = Next None \/
  exists r, In r [noFile; tooFewFiles; badFile; emptyFile] /\
            uploadMultipleFilesMiddleware field minFiles maxFiles req =
              Next (Some (JsResponse r)).
Proof.
  unfold uploadMultipleFilesMiddleware.
  destruct (files req) as [[arr|dict]|];
    try (right; exists noFile; split; [simpl; tauto | reflexivity]).
  destruct (Z.of_nat (length arr) =? 0);
    [right; exists noFile; split; [simpl; tauto | reflexivity]|].
  destruct (Z.of_nat (length arr) <? minFiles);
    [right; exists tooFewFiles; split; [simpl; tauto | reflexivity]|].
  destruct (checkEach_outcome arr) as [H | [H | H]]; rewrite H.
  - left. reflexivity.
  - right. exists badFile. split; [simpl; tauto | reflexivity].
  - right. exists emptyFile. split; [simpl; tauto | reflexivity].
Qed.

(** X1. The single-file validator calls [next()] without an error exactly
    when a file was received whose MIME type starts with [image/] and
    whose size is not zero: a handler behind it can rely on both. *)
Theorem single_file_pass_iff (field : string) (req : Request) :
  uploadSingleFileMiddleware field req = Next None <->
  exists f, file req = Some f /\ acceptable f.
Proof.
  unfold uploadSingleFileMiddleware, acceptable, isImage. split.
  - destruct (file req) as [f|]; [|discriminate].
    destruct (startsWith (mimetype f) "image/") eqn:Himg; simpl; [|discriminate].
    destruct (size f =? 0) eqn:Hsz; [discriminate|]. intros _.
    exists f. split; [reflexivity|]. split; [exact Himg|].
    apply Z.eqb_neq. exact Hsz.
  - intros [f [-> [Himg Hsz]]]. rewrite Himg. simpl.
    apply Z.eqb_neq in Hsz. rewrite Hsz. reflexivity.
Qed.

(** X2. The multi-file validator calls [next()] without an error exactly
    when [req.files] is a non-empty array of at least [minFiles] files,
    each with a MIME type that starts with [image/] and a size that is not
    zero. *)
Theorem multiple_files_pass_iff
  (field : string) (minFiles maxFiles : Z) (req : Request) :
  uploadMultipleFilesMiddleware field minFiles maxFiles req = Next None <->
  exists arr, files req = Some (FilesArray arr) /\ arr <> [] /\
              minFiles <= Z.of_nat (length arr) /\ Forall acceptable arr.
Proof.
  unfold uploadMultipleFilesMiddleware. split.
  - destruct (files req) as [[arr|dict]|]; try discriminate.
    destruct (Z.of_nat (length arr) =? 0) eqn:Hlen; [discriminate|].
    destruct (Z.of_nat (length arr) <? minFiles) eqn:Hmin; [discriminate|].
    intros Hpass. exists arr. repeat split.
    + intros ->. simpl in Hlen. discriminate Hlen.
    + apply Z.ltb_ge. exact Hmin.
    + apply checkEach_pass_acceptable. exact Hpass.
  - intros [arr [-> [Hne [Hmin Hall]]]].
    replace (Z.of_nat (length arr) =? 0) with false
      by (symmetry; apply Z.eqb_neq; destruct arr; [congruence | simpl length; lia]).
    apply Z.ltb_ge in Hmin. rewrite Hmin.
    apply checkEach_all_acceptable. exact Hall.
Qed.

(** X3. Whatever the request, each validator either calls [next()] or
    calls [next] with one of its canned responses, all of them with
    [success] false and status 400: the single-file one with NO_FILES,
    UNSUPPORTED_FILE or EMPTY_FILE, the multi-file one with these or
    TOO_FEW_FILES.  Neither throws. *)
Theorem validators_reject_with_canned_responses
  (field : string) (minFiles maxFiles : Z) (req : Request) :
  (uploadSingleFileMiddleware field req = Next None \/
   exists r, In (code r) ["NO_FILES"; "UNSUPPORTED_FILE"; "EMPTY_FILE"] /\
             success r = false /\ status r = 400 /\
             uploadSingleFileMiddleware field req = Next (Some (JsResponse r))) /\
  (uploadMultipleFilesMiddleware field minFiles maxFiles req = Next None \/
   exists r, In (code r)
               ["NO_FILES"; "TOO_FEW_FILES"; "UNSUPPORTED_FILE"; "EMPTY_FILE"] /\
             success r = false /\ status r = 400 /\
             uploadMultipleFilesMiddleware field minFiles maxFiles req =
               Next (Some (JsResponse r))).
Proof.
  split.
  - destruct (single_outcome field req) as [H | [r [Hin H]]]; [left; exact H|].
    right. exists r. simpl in Hin.
    destruct Hin as [<- | [<- | [<- | []]]]; simpl; tauto.
  - destruct (multiple_outcome field minFiles maxFiles req) as [H | [r [Hin H]]];
      [left; exact H|].
    right. exists r. simpl in Hin.
    destruct Hin as [<- | [<- | [<- | [<- | []]]]]; simpl; tauto.
Qed.

(** ** Validators and error handler together *)

(** X4. A rejection of either validator is not a [MulterError]: when the
    cleanup pass resolves, the error handler hands the validator's
    response to [next] as it is, after the pass. *)
Theorem validator_rejection_forwarded
  (u : Unlinker) (field : string) (minFiles maxFiles : Z)
  (req : Request) (w : World) (e : JsValue) :
  uploadSingleFileMiddleware field req = Next (Some e) \/
  uploadMultipleFilesMiddleware field minFiles maxFiles req = Next (Some e) ->
  fst (cleanupFiles u req w) = Resolved ->
  uploadErrorHandlerMiddleware u e req w =
    (Next (Some e), snd (cleanupFiles u req w)).
Proof.
  intros Hrej Hres.
  assert (Hresp : exists r, e = JsResponse r).
  { destruct Hrej as [Hs | Hm].
    - destruct (single_outcome field req) as [H | [r [_ H]]];
        rewrite H in Hs; [discriminate Hs|].
      exists r. injection Hs as <-. reflexivity.
    - destruct (multiple_outcome field minFiles maxFiles req) as [H | [r [_ H]]];
        rewrite H in Hm; [discriminate Hm|].
      exists r. injection Hm as <-. reflexivity. }
  destruct Hresp as [r ->].
  rewrite (surjective_pairing (uploadErrorHandlerMiddleware u _ req w)).
  rewrite uploadErrorHandlerMiddleware_world.
  rewrite (uploadErrorHandlerMiddleware_resolved u _ req w Hres).
  reflexivity.
Qed.

Lemma validator_rejection_forwarded_witness :
  uploadErrorHandlerMiddleware unlink (JsResponse badFile)
    {| file := Some notes; files := None |} sampleWorld =
    (Next (Some (JsResponse badFile)),
     snd (cleanupFiles unlink {| file := Some notes; files := None |} sampleWorld)).
Proof.
  apply (validator_rejection_forwarded unlink "photo" 1 5
           {| file := Some notes; files := None |} sampleWorld (JsResponse badFile)).
  - left. reflexivity.
  - vm_compute. reflexivity.
Defined.

(** ** Counting files *)

(** X5. The multi-file validator answers TOO_FEW_FILES exactly when
    [req.files] is an array of at least one and fewer than [minFiles]
    files; with [minFiles] at most 1 it never does, an empty upload being
    NO_FILES. *)
Theorem too_few_files_iff
  (field : string) (minFiles maxFiles : Z) (req : Request) :
  (uploadMultipleFilesMiddleware field minFiles maxFiles req =
     Next (Some (JsResponse tooFewFiles)) <->
   exists arr, files req = Some (FilesArray arr) /\
               0 < Z.of_nat (length arr) < minFiles) /\
  (minFiles <= 1 ->
   uploadMultipleFilesMiddleware field minFiles maxFiles req <>
     Next (Some (JsResponse tooFewFiles))).
Proof.
  assert (Hiff : uploadMultipleFilesMiddleware field minFiles maxFiles req =
                   Next (Some (JsResponse tooFewFiles)) <->
                 exists arr, files req = Some (FilesArray arr) /\
                             0 < Z.of_nat (length arr) < minFiles).
  { unfold uploadMultipleFilesMiddleware. split.
    - destruct (files req) as [[arr|dict]|]; try discriminate.
      destruct (Z.of_nat (length arr) =? 0) eqn:Hlen; [discriminate|].
      destruct (Z.of_nat (length arr) <? minFiles) eqn:Hmin.
      + intros _. exists arr. split; [reflexivity|].
        apply Z.eqb_neq in Hlen. apply Z.ltb_lt in Hmin. lia.
      + intros Hchk.
        destruct (checkEach_outcome arr) as [H | [H | H]];
          rewrite H in Hchk; discriminate Hchk.
    - intros [arr [-> [Hpos Hlt]]].
      replace (Z.of_nat (length arr) =? 0) with false
        by (symmetry; apply Z.eqb_neq; lia).
      apply Z.ltb_lt in Hlt. rewrite Hlt. reflexivity. }
  split; [exact Hiff|].
  intros Hmin Htoo. apply Hiff in Htoo as [arr [_ Hlen]]. lia.
Qed.

Lemma too_few_files_iff_witness :
  uploadMultipleFilesMiddleware "photos" 1 5 noUpload <>
    Next (Some (JsResponse tooFewFiles)) /\
  uploadMultipleFilesMiddleware "photos" 3 5 twoPhotos =
    Next (Some (JsResponse tooFewFiles)).
Proof.
  split.
  - apply (proj2 (too_few_files_iff "photos" 1 5 noUpload)). lia.
  - apply (proj1 (too_few_files_iff "photos" 3 5 twoPhotos)).
    exists [photo; portrait]. split; [reflexivity | simpl; lia].
Defined.

(** X6. An endpoint set up with [minFiles] above [maxFiles] accepts
    nothing: an array that respects the [files] limit of
    [multipleFileUploader(env, maxFiles)] is always answered with NO_FILES
    or TOO_FEW_FILES. *)
Theorem min_above_max_rejects_all
  (env : Environment) (field : string) (minFiles maxFiles : Z)
  (req : Request) (arr : list File) :
  files req = Some (FilesArray arr) ->
  withinFileLimit (multipleFileUploader env maxFiles) arr ->
  maxFiles < minFiles ->
  uploadMultipleFilesMiddleware field minFiles maxFiles req =
    Next (Some (JsResponse noFile)) \/
  uploadMultipleFilesMiddleware field minFiles maxFiles req =
    Next (Some (JsResponse tooFewFiles)).
Proof.
  unfold withinFileLimit, uploadMultipleFilesMiddleware. simpl.
  intros -> Hlim Hlt.
  destruct (Z.of_nat (length arr) =? 0); [left; reflexivity|].
  replace (Z.of_nat (length arr) <? minFiles) with true
    by (symmetry; apply Z.ltb_lt; lia).
  right. reflexivity.
Qed.

Lemma min_above_max_rejects_all_witness :
  uploadMultipleFilesMiddleware "photos" 3 2 twoPhotos =
    Next (Some (JsResponse noFile)) \/
  uploadMultipleFilesMiddleware "photos" 3 2 twoPhotos =
    Next (Some (JsResponse tooFewFiles)).
Proof.
  apply (min_above_max_rejects_all sampleEnv "photos" 3 2 twoPhotos
           [photo; portrait]).
  - reflexivity.
  - unfold withinFileLimit. simpl. lia.
  - lia.
Defined.

(** X7. [singleFileUploader(env)] sets up multer as
    [multipleFileUploader(env, 1)] does.  With [maxFiles] and [minFiles]
    both at most 1, an array that respects the [files] limit is decided by
    the multi-file validator as the single-file validator decides its only
    file (or the absence of one). *)
Theorem one_file_array_as_single_file
  (env : Environment) (field field' : string) (minFiles maxFiles : Z)
  (arr : list File) :
  singleFileUploader env = multipleFileUploader env 1 /\
  (maxFiles <= 1 -> minFiles <= 1 ->
   withinFileLimit (multipleFileUploader env maxFiles) arr ->
   uploadMultipleFilesMiddleware field minFiles maxFiles
     {| file := None; files := Some (FilesArray arr) |} =
   uploadSingleFileMiddleware field' {| file := hd_error arr; files := None |}).
Proof.
  split; [reflexivity|].
  unfold withinFileLimit, uploadMultipleFilesMiddleware,
    uploadSingleFileMiddleware. simpl.
  intros Hmax Hmin Hlim. destruct arr as [|f [|g arr]].
  - reflexivity.
  - assert (Hone : (Z.of_nat (length [f]) <? minFiles) = false)
      by (apply Z.ltb_ge; simpl length; lia).
    rewrite Hone. reflexivity.
  - simpl length in Hlim. lia.
Qed.

Lemma one_file_array_as_single_file_witness :
  uploadMultipleFilesMiddleware "photos" 1 1
    {| file := None; files := Some (FilesArray [blank]) |} =
  uploadSingleFileMiddleware "photo" {| file := Some blank; files := None |}.
Proof.
  apply (proj2 (one_file_array_as_single_file sampleEnv "photos" "photo" 1 1
                  [blank])).
  - lia.
  - lia.
  - unfold withinFileLimit. simpl. lia.
Defined.

(** ** The codes of translated errors *)

(** X8. The code the error handler gives to a [MulterError] is always
    BAD_REQUEST or one of the seven UPLOAD_LIMIT_ codes; it is BAD_REQUEST
    exactly for the codes outside the seven; and an error with one of the
    seven codes shares its UPLOAD_ code only with errors of the same
    code. *)
Theorem response_code_range (c : string) :
  In (responseCode c) translatedCodes /\
  (responseCode c = "BAD_REQUEST" <-> ~ In c limitCodes) /\
  (forall c', In c limitCodes -> responseCode c = responseCode c' -> c = c').
Proof.
  assert (Hdec : In c limitCodes \/ ~ In c limitCodes).
  { destruct (in_dec String.string_dec c limitCodes); [left | right]; assumption. }
  assert (Hpre : forall x, String.append "UPLOAD_" x <> "BAD_REQUEST").
  { intros x H. simpl in H. discriminate H. }
  split; [|split].
  - destruct Hdec as [Hin | Hnot].
    + rewrite (responseCode_limit c Hin). right.
      apply in_map. exact Hin.
    + rewrite (responseCode_default c Hnot). left. reflexivity.
  - split.
    + intros Hbad Hin. rewrite (responseCode_limit c Hin) in Hbad.
      exact (Hpre c Hbad).
    + apply responseCode_default.
  - intros c' Hin Heq. rewrite (responseCode_limit c Hin) in Heq.
    destruct (in_dec String.string_dec c' limitCodes) as [Hin' | Hnot'].
    + rewrite (responseCode_limit c' Hin') in Heq. simpl in Heq.
      injection Heq as Heq. exact Heq.
    + rewrite (responseCode_default c' Hnot') in Heq.
      exfalso. exact (Hpre c Heq).
Qed.

Lemma response_code_range_witness :
  responseCode "MISSING_FIELD_NAME" = "BAD_REQUEST" /\
  (responseCode "LIMIT_FILE_COUNT" = responseCode "LIMIT_FILE_COUNT" ->
   "LIMIT_FILE_COUNT" = "LIMIT_FILE_COUNT").
Proof.
  split.
  - apply (proj2 (proj1 (proj2 (response_code_range "MISSING_FIELD_NAME")))).
    vm_compute. intros H.
    repeat (destruct H as [H|H]; [discriminate H|]). exact H.
  - apply (proj2 (proj2 (response_code_range "LIMIT_FILE_COUNT"))
             "LIMIT_FILE_COUNT").
    vm_compute. tauto.
Defined.

(** ** What the cleanup pass leaves alone *)

Lemma Object_get_in (dict : FileDict) (key : string) (f : File) :
  In f (Object_get dict key) -> In f (flat_map snd dict).
Proof.
  induction dict as [|[k v] dict IH]; simpl; [tauto|].
  intros Hin. apply in_or_app.
  destruct (String.eqb k key); [left; exact Hin | right; apply IH; exact Hin].
Qed.

Lemma visited_are_staged (req : Request) (f : File) :
  In f (visited req) -> In f (stagedFiles req).
Proof.
  unfold visited, stagedFiles. destruct (file req) as [g|].
  - intros Hin. apply in_or_app. left. exact Hin.
  - simpl. destruct (files req) as [[arr|dict]|]; simpl; try tauto.
    intros Hin. apply in_flat_map in Hin as [key [_ Hin]].
    apply (Object_get_in dict key f Hin).
Qed.

Lemma Array_map_leaves (u : Unlinker) (fs : list File) (w : World) (q : string) :
  touchesOnlyItsPath u -> ~ In q (map path fs) ->
  (q ∈ disk (snd (Array_map (unlinkFile u) fs w)) <-> q ∈ disk w).
Proof.
  intros Hloc. revert w. induction fs as [|f fs IH]; intros w Hnot; simpl.
  - reflexivity.
  - unfold unlinkFile at 1. unfold callUnlink.
    pose proof (Hloc (path f) (disk w) q) as Hstep.
    destruct (u (path f) (disk w)) as [r d]. simpl in Hstep.
    specialize (IH {| disk := d; unlinked := (unlinked w ++ [path f])%list |}).
    destruct (Array_map (unlinkFile u) fs _) as [rs w2]. simpl in *.
    rewrite IH by tauto. apply Hstep. intros ->. tauto.
Qed.

Lemma unlink_touchesOnlyItsPath : touchesOnlyItsPath unlink.
Proof.
  intros p d q Hne. rewrite unlink_effect. simpl.
  rewrite elem_of_difference, elem_of_singleton. tauto.
Qed.

Lemma unlinkStrict_touchesOnlyItsPath : touchesOnlyItsPath unlinkStrict.
Proof.
  intros p d q Hne. unfold unlinkStrict, fs_unlink.
  case_decide; simpl; [|reflexivity].
  rewrite elem_of_difference, elem_of_singleton. tauto.
Qed.

(** X9. With a removal helper that touches no path but the one it is
    given, the cleanup pass leaves every path that is not the path of a
    file of this request as it was: present if it was present, absent if
    it was absent.  The files of other requests are safe. *)
Theorem cleanup_leaves_other_files
  (u : Unlinker) (req : Request) (w : World) (q : string) :
  touchesOnlyItsPath u ->
  ~ In q (map path (stagedFiles req)) ->
  (q ∈ disk (snd (cleanupFiles u req w)) <-> q ∈ disk w) /\
  (q ∈ disk (snd (cleanUploadedFilesMiddleware u req w)) <-> q ∈ disk w) /\
  (forall err, q ∈ disk (snd (uploadErrorHandlerMiddleware u err req w)) <->
               q ∈ disk w).
Proof.
  intros Hloc Hnot.
  assert (Hpass : q ∈ disk (snd (cleanupFiles u req w)) <-> q ∈ disk w).
  { rewrite cleanupFiles_visited.
    pose proof (Array_map_leaves u (visited req) w q Hloc) as Hleave.
    destruct (Array_map (unlinkFile u) (visited req) w) as [rs w']. simpl in *.
    apply Hleave. intros Hin. apply Hnot.
    apply in_map_iff in Hin as [f [<- Hin]].
    apply in_map, visited_are_staged, Hin. }
  split; [exact Hpass|]. split.
  - rewrite cleanUploadedFilesMiddleware_next. exact Hpass.
  - intros err. rewrite uploadErrorHandlerMiddleware_world. exact Hpass.
Qed.

Lemma cleanup_leaves_other_files_witness :
  path notes ∈ disk (snd (cleanupFiles unlinkStrict twoPhotos sampleWorld)) <->
  path notes ∈ disk sampleWorld.
Proof.
  apply (cleanup_leaves_other_files unlinkStrict twoPhotos sampleWorld (path notes)).
  - exact unlinkStrict_touchesOnlyItsPath.
  - vm_compute. intros H.
    repeat (destruct H as [H|H]; [discriminate H|]). exact H.
Defined.

Lemma Array_map_quiet (u : Unlinker) (fs : list File) (w : World) :
  neverRejects u ->
  Promise_all (fst (Array_map (unlinkFile u) fs w)) = Resolved.
Proof.
  intros Hquiet. revert w. induction fs as [|f fs IH]; intros w; simpl;
    [reflexivity|].
  unfold unlinkFile at 1. unfold callUnlink.
  pose proof (Hquiet (path f) (disk w)) as Hres.
  destruct (u (path f) (disk w)) as [r d]. simpl in Hres. subst r.
  specialize (IH {| disk := d; unlinked := (unlinked w ++ [path f])%list |}).
  destruct (Array_map (unlinkFile u) fs _) as [rs w2]. exact IH.
Qed.

Lemma Array_map_removes (u : Unlinker) (fs : list File) (w : World) :
  removesItsPath u ->
  disk (snd (Array_map (unlinkFile u) fs w)) =
    disk w ∖ list_to_set (map path fs).
Proof.
  intros Hrem. revert w. induction fs as [|f fs IH]; intros w; simpl.
  - rewrite difference_empty_L. reflexivity.
  - unfold unlinkFile at 1. unfold callUnlink.
    pose proof (Hrem (path f) (disk w)) as Hstep.
    destruct (u (path f) (disk w)) as [r d]. simpl in Hstep.
    specialize (IH {| disk := d; unlinked := (unlinked w ++ [path f])%list |}).
    destruct (Array_map (unlinkFile u) fs _) as [rs w2]. simpl in *.
    rewrite IH, Hstep, difference_difference_l_L. reflexivity.
Qed.

Lemma unlink_removesItsPath : removesItsPath unlink.
Proof. intros p d. rewrite unlink_effect. reflexivity. Qed.

Lemma unlink_quiet : neverRejects unlink.
Proof. intros p d. rewrite unlink_effect. reflexivity. Qed.

(** X10. With a removal helper that never rejects and after which the
    given path is gone and the rest of the disk unchanged, the disk a
    cleanup pass leaves is the same for every order of the files in
    [req.files]: the removals of one pass can take effect in any order. *)
Theorem cleanup_order_irrelevant
  (u : Unlinker) (arr arr' : list File) (w : World) :
  neverRejects u -> removesItsPath u -> Permutation arr arr' ->
  fst (cleanupFiles u {| file := None; files := Some (FilesArray arr) |} w) =
    Resolved /\
  fst (cleanupFiles u {| file := None; files := Some (FilesArray arr') |} w) =
    Resolved /\
  disk (snd (cleanupFiles u {| file := None; files := Some (FilesArray arr) |} w)) =
  disk (snd (cleanupFiles u {| file := None; files := Some (FilesArray arr') |} w)).
Proof.
  intros Hquiet Hrem Hperm.
  assert (Hres : forall xs,
            fst (cleanupFiles u
                   {| file := None; files := Some (FilesArray xs) |} w) =
            Resolved).
  { intros xs. rewrite cleanupFiles_visited.
    unfold visited. cbn [file files].
    pose proof (Array_map_quiet u xs w Hquiet) as Hall.
    destruct (Array_map (unlinkFile u) xs w). exact Hall. }
  assert (Hdisk : forall xs,
            disk (snd (cleanupFiles u
                         {| file := None; files := Some (FilesArray xs) |} w)) =
            disk w ∖ list_to_set (map path xs)).
  { intros xs. rewrite cleanupFiles_visited, <- (Array_map_removes u xs w Hrem).
    unfold visited. cbn [file files].
    destruct (Array_map (unlinkFile u) xs w). reflexivity. }
  split; [apply Hres|]. split; [apply Hres|].
  rewrite !Hdisk. f_equal.
  apply list_to_set_perm_L, Permutation_map, Hperm.
Qed.

Lemma cleanup_order_irrelevant_witness :
  disk (snd (cleanupFiles unlink
               {| file := None; files := Some (FilesArray [notes; photo]) |}
               sampleWorld)) =
  disk (snd (cleanupFiles unlink
               {| file := None; files := Some (FilesArray [photo; notes]) |}
               sampleWorld)).
Proof.
  apply (cleanup_order_irrelevant unlink [notes; photo] [photo; notes] sampleWorld).
  - exact unlink_quiet.
  - exact unlink_removesItsPath.
  - apply perm_swap.
Defined.

(** ** When the error handler reaches [next] *)

Lemma Array_map_resolved (u : Unlinker) (fs : list File) (w : World) :
  neverRejects u ->
  Promise_all (fst (Array_map (unlinkFile u) fs w)) = Resolved.
Proof.
  intros Hnever. revert w. induction fs as [|f fs IH]; intros w; simpl;
    [reflexivity|].
  unfold unlinkFile at 1. unfold callUnlink.
  pose proof (Hnever (path f) (disk w)) as Hres.
  destruct (u (path f) (disk w)) as [r d]. simpl in Hres. subst r.
  specialize (IH {| disk := d; unlinked := (unlinked w ++ [path f])%list |}).
  destruct (Array_map (unlinkFile u) fs _) as [rs w2]. exact IH.
Qed.

Lemma unlink_neverRejects : neverRejects unlink.
Proof. intros p d. rewrite unlink_effect. reflexivity. Qed.

(** X11. With any removal helper whose promise never rejects, the cleanup
    pass resolves for every request and disk, and the error handler always
    reaches [next]: with the translated response for a [MulterError], with
    the error itself otherwise. *)
Theorem quiet_helper_never_escalates
  (u : Unlinker) (req : Request) (w : World) (err : JsValue) :
  neverRejects u ->
  fst (cleanupFiles u req w) = Resolved /\
  fst (uploadErrorHandlerMiddleware u err req w) =
    Next (Some (if instanceofMulterError err
                then JsResponse (translated (errCodeOf err) (errMessageOf err))
                else err)).
Proof.
  intros Hnever.
  assert (Hres : fst (cleanupFiles u req w) = Resolved).
  { rewrite cleanupFiles_visited.
    pose proof (Array_map_resolved u (visited req) w Hnever) as Hall.
    destruct (Array_map (unlinkFile u) (visited req) w). exact Hall. }
  split; [exact Hres|].
  apply uploadErrorHandlerMiddleware_resolved. exact Hres.
Qed.

Lemma quiet_helper_never_escalates_witness :
  fst (uploadErrorHandlerMiddleware unlink (JsError "ECONNRESET") grouped sampleWorld)
    = Next (Some (JsError "ECONNRESET")).
Proof.
  apply (quiet_helper_never_escalates unlink grouped sampleWorld
           (JsError "ECONNRESET") unlink_neverRejects).
Defined.

(** X12. The error handler reaches [next] exactly when the cleanup pass
    resolves.  When the pass rejects, the handler rejects with the reason
    of the pass and the error it was given is not handed on, while the
    cleanup middleware still calls [next()]; this is what happens when the
    removal of [req.file] rejects. *)
Theorem error_handler_next_iff_resolved
  (u : Unlinker) (err : JsValue) (req : Request) (w : World) :
  ((exists a, fst (uploadErrorHandlerMiddleware u err req w) = Next a) <->
   fst (cleanupFiles u req w) = Resolved) /\
  (forall e, fst (cleanupFiles u req w) = Rejected e ->
     fst (uploadErrorHandlerMiddleware u err req w) = Threw e /\
     fst (cleanUploadedFilesMiddleware u req w) = Next None) /\
  (forall f e, file req = Some f -> fst (u (path f) (disk w)) = Rejected e ->
     fst (uploadErrorHandlerMiddleware u err req w) = Threw e).
Proof.
  assert (Hrej : forall e, fst (cleanupFiles u req w) = Rejected e ->
            fst (uploadErrorHandlerMiddleware u err req w) = Threw e).
  { intros e. unfold uploadErrorHandlerMiddleware.
    destruct (cleanupFiles u req w) as [[|e'] w']; simpl; [discriminate|].
    intros [= ->]. reflexivity. }
  split; [|split].
  - split.
    + intros [a Ha]. destruct (fst (cleanupFiles u req w)) eqn:Hpass;
        [reflexivity|].
      rewrite (Hrej reason eq_refl) in Ha. discriminate Ha.
    + intros Hres. eexists.
      apply (uploadErrorHandlerMiddleware_resolved u err req w Hres).
  - intros e He. split; [apply Hrej; exact He|].
    rewrite cleanUploadedFilesMiddleware_next. reflexivity.
  - intros f e Hfile Hu. apply Hrej.
    unfold cleanupFiles, unlinkFile, callUnlink. rewrite Hfile.
    destruct (u (path f) (disk w)) as [r d]. exact Hu.
Qed.

Lemma error_handler_next_iff_resolved_witness :
  fst (uploadErrorHandlerMiddleware unlinkStrict (JsResponse emptyFile)
         {| file := Some portrait; files := None |} sampleWorld) =
    Threw (JsError "ENOENT") /\
  fst (cleanUploadedFilesMiddleware unlinkStrict
         {| file := Some portrait; files := None |} sampleWorld) = Next None.
Proof.
  pose proof (error_handler_next_iff_resolved unlinkStrict (JsResponse emptyFile)
                {| file := Some portrait; files := None |} sampleWorld)
    as [_ [Hrej Hfile]].
  split.
  - apply (Hfile portrait (JsError "ENOENT")); [reflexivity|].
    vm_compute. reflexivity.
  - apply (Hrej (JsError "ENOENT")). vm_compute. reflexivity.
Defined.

(** ** Staged files with a helper that works *)

(** X13. With a removal helper that never rejects and after which the
    given path is gone, the cleanup pass resolves and no staged file of a
    request as multer populates it is left on the disk after the pass,
    after the cleanup middleware or after the error handler. *)
Theorem staged_files_gone_with_quiet_helper
  (u : Unlinker) (req : Request) (w : World) (err : JsValue) (f : File) :
  neverRejects u -> removesItsPath u ->
  populatedByMulter req -> In f (stagedFiles req) ->
  fst (cleanupFiles u req w) = Resolved /\
  (path f ∉ disk (snd (cleanupFiles u req w))) /\
  (path f ∉ disk (snd (cleanUploadedFilesMiddleware u req w))) /\
  (path f ∉ disk (snd (uploadErrorHandlerMiddleware u err req w))).
Proof.
  intros Hquiet Hrem Hpop Hin.
  assert (Hres : fst (cleanupFiles u req w) = Resolved).
  { rewrite cleanupFiles_visited.
    pose proof (Array_map_quiet u (visited req) w Hquiet) as Hall.
    destruct (Array_map (unlinkFile u) (visited req) w). exact Hall. }
  assert (Hgone : path f ∉ disk (snd (cleanupFiles u req w))).
  { rewrite cleanupFiles_visited.
    pose proof (Array_map_removes u (visited req) w Hrem) as Hdisk.
    destruct (Array_map (unlinkFile u) (visited req) w) as [rs w'].
    simpl in *. rewrite Hdisk.
    apply visited_path_gone, staged_are_visited; assumption. }
  rewrite cleanUploadedFilesMiddleware_next, uploadErrorHandlerMiddleware_world.
  repeat split; assumption.
Qed.

Lemma staged_files_gone_with_quiet_helper_witness :
  path notes ∉
    disk (snd (uploadErrorHandlerMiddleware unlink (JsResponse badFile)
                 {| file := None; files := Some (FilesArray [photo; notes]) |}
                 sampleWorld)).
Proof.
  apply (staged_files_gone_with_quiet_helper unlink
           {| file := None; files := Some (FilesArray [photo; notes]) |}
           sampleWorld (JsResponse badFile) notes).
  - exact unlink_quiet.
  - exact unlink_removesItsPath.
  - split; [left; reflexivity | exact I].
  - right. left. reflexivity.
Defined.
